(** * Inventory store of [inventory_omumba.py]: a shallow embedding

    The development follows the Python source function by function.  The
    in-memory data frames of [InventoryApp] and the two workbooks on disk are
    explicit state; every operation is a function from the state before to
    the message box it shows and the state after.

    Conventions of the embedding.
    - A Python [str] is a [string] whose characters are the code points
      0..255; [strip] and [lower] are Python's on that range.
    - A data frame is the list of its rows, a row a record with one field per
      column; the row labels are the positions [0..len-1], as they are after
      [reset_index(drop=True)] and [ignore_index=True].
    - Quantities are Python [int]s, modelled by [Z]; the [float] type, the
      parser [float(s)], the truncation [int(f)] and SHA-256 are library code
      and enter through the class [PyLib].
    - The workbook codec ([pd.read_excel], [DataFrame.to_excel]) is taken to
      hand back the rows it was given.
    - [datetime.now()] is read once per operation: the two renderings of the
      current time are arguments of the operation, as are the outcomes of
      [shutil.copy2] and [shutil.move].
    - Tk widgets are not modelled.  A form is the text of its entry fields, a
      button is the function it calls, and a view that is shown again is the
      reload of the frame it performs.
    - The operations embedded are start, login, logout, add, edit, delete,
      issue, batch issue, return, batch return and the save of a user, with
      the sheet, backup, ledger and admin helpers under them.  CSV import and
      export, the category, staff and general settings forms and the
      dashboard are left out. *)

From Stdlib Require Import ZArith String Ascii Floats.
From stdpp Require Import base option list gmap strings pretty.

Local Open Scope string_scope.
Local Open Scope list_scope.
Local Open Scope Z_scope.

(** ** Python string helpers *)

(** [str.isspace] on the code points below 256. *)
Definition isspace (c : ascii) : bool :=
  let n := N_of_ascii c in
  (((9 <=? n) && (n <=? 13)) || ((28 <=? n) && (n <=? 32))
   || (n =? 133) || (n =? 160))%N.

Fixpoint lstrip (s : string) : string :=
  match s with
  | EmptyString => EmptyString
  | String c s' => if isspace c then lstrip s' else s
  end.

Fixpoint rstrip (s : string) : string :=
  match s with
  | EmptyString => EmptyString
  | String c s' =>
      match rstrip s' with
      | EmptyString => if isspace c then EmptyString else String c EmptyString
      | r => String c r
      end
  end.

(** [s.strip()] *)
Definition strip (s : string) : string := rstrip (lstrip s).

(** [str.lower] on one code point below 256. *)
Definition lower_ascii (c : ascii) : ascii :=
  let n := N_of_ascii c in
  if (((65 <=? n) && (n <=? 90)) || ((192 <=? n) && (n <=? 214))
      || ((216 <=? n) && (n <=? 222)))%N
  then ascii_of_N (n + 32) else c.

(** [s.lower()] *)
Fixpoint lower (s : string) : string :=
  match s with
  | EmptyString => EmptyString
  | String c s' => String (lower_ascii c) (lower s')
  end.

(** The test [str(v).strip().lower() in ("true", "1", "yes", "y", "t")] of
    [load_sheet] and [do_issue]. *)
Definition truthy (s : string) : bool :=
  bool_decide (lower (strip s) ∈ ["true"; "1"; "yes"; "y"; "t"]).

(** Strings made of whitespace only, and strings that do not start with
    whitespace. *)
Fixpoint whitespace (s : string) : bool :=
  match s with
  | EmptyString => true
  | String c s' => isspace c && whitespace s'
  end.


(** What pandas hands back for a cell of an untyped column: a missing cell
    ([NaN]) or text. *)
Inductive cell : Type :=
  | NaN
  | Str (s : string).

(** Python's [str(v)] on a cell. *)
Definition str (v : cell) : string :=
  match v with
  | NaN => "nan"
  | Str s => s
  end.

(** ** Sheets and rows *)

Definition ROLES : list string := ["Admin"; "Clerk"; "Viewer"].

(** A workbook path holds nothing, bytes that pandas cannot open, or a
    workbook with its declared sheets. *)
Inductive file (A : Type) : Type :=
  | Absent
  | Corrupt
  | Workbook (b : A).
Arguments Absent {A}.
Arguments Corrupt {A}.
Arguments Workbook {A} b.

(** ** Library code the program calls *)

(** Python's [float] with [0.0], [float(s)] and [int(f)] ([None] when they
    raise), and [hashlib.sha256(s.encode("utf-8")).hexdigest()]. *)
Class PyLib : Type := {
  float : Type;
  float_zero : float;
  float_of_string : string → option float;
  int_of_float : float → option Z;
  sha256_hexdigest : string → string
}.

Section Store.

Context {lib : PyLib}.

(** A row of the Inventory sheet ([INVENTORY_COLUMNS]). *)
Record InventoryRow : Type := mkInventoryRow {
  Product_Name : string;
  Category : string;
  Serial_Number : string;
  Barcode : string;
  Available : string;
  Location : string;
  Quantity : Z;
  Unit_Price : float;
  Low_Stock_Threshold : Z
}.

(** A row of the Issued sheet ([ISSUED_COLUMNS]). *)
Record IssuedRow : Type := mkIssuedRow {
  iss_Product_Name : string;
  iss_Category : string;
  iss_Serial_Number : string;
  iss_Barcode : string;
  Issued_To : string;
  Department : string;
  Position : string;
  Issue_Date : string
}.

(** A row of the History sheet ([HISTORY_COLUMNS]). *)
Record HistoryRow : Type := mkHistoryRow {
  Timestamp : string;
  User : string;
  Action : string;
  Details : string
}.

(** A row of the Staff sheet ([STAFF_COLUMNS]). *)
Record StaffRow : Type := mkStaffRow {
  staff_Username : string;
  staff_Department : string;
  staff_Position : string
}.

(** A row of the Users sheet ([USERS_COLUMNS]). *)
Record UserRow : Type := mkUserRow {
  Username : string;
  PasswordHash : cell;
  Role : cell;
  Active : bool
}.

(** A row of the Settings sheet ([SETTINGS_COLUMNS]). *)
Record SettingRow : Type := mkSettingRow {
  Key : cell;
  Value : cell
}.

(** ** The two workbooks on disk *)

(** The sheets of [DATA_FILE] ([DATA_SPEC]). *)
Record DataBook : Type := mkDataBook {
  Inventory : list InventoryRow;
  Issued : list IssuedRow;
  History : list HistoryRow;
  Staff : list StaffRow
}.

(** The sheets of [AUTH_FILE] ([AUTH_SPEC]). *)
Record AuthBook : Type := mkAuthBook {
  Users : list UserRow;
  Settings : list SettingRow
}.

(** The content of a copied or quarantined file. *)
Inductive blob : Type :=
  | DataBlob (b : DataBook)
  | AuthBlob (b : AuthBook)
  | Garbage.

(** [copies] maps the path of every backup and quarantined file to what it
    holds. *)
Record Disk : Type := mkDisk {
  data_file : file DataBook;
  auth_file : file AuthBook;
  copies : gmap string blob
}.

(** The environment of one operation: the current time in the two formats
    the program prints it in, and whether [shutil.copy2] and [shutil.move]
    succeed. *)
Record Env : Type := mkEnv {
  now : string;       (* strftime("%Y-%m-%d %H:%M:%S") *)
  stamp : string;     (* strftime("%Y%m%d_%H%M%S") *)
  copy_ok : bool;
  move_ok : bool
}.

(** The two backing files, with [os.path.splitext] of their paths. *)
Inductive target : Type := DataFile | AuthFile.

Definition splitext (t : target) : string * string :=
  match t with
  | DataFile => ("data/Nkhokwe", ".xlsx")
  | AuthFile => ("data/Nkhokwe_Auth", ".xlsx")
  end.

Inductive sheet : Type :=
  | INVENTORY_SHEET | ISSUED_SHEET | HISTORY_SHEET | STAFF_SHEET
  | USERS_SHEET | SETTINGS_SHEET.

(** [SHEETS_TO_FILE] *)
Definition get_file_for_sheet (s : sheet) : target :=
  match s with
  | USERS_SHEET | SETTINGS_SHEET => AuthFile
  | _ => DataFile
  end.

Definition hash_pw (pw : string) : string := sha256_hexdigest pw.

(** [pw_hash] is a cell of the Users frame, never [None]. *)
Definition check_pw (pw : string) (pw_hash : cell) : bool :=
  bool_decide (hash_pw pw = str pw_hash).

Definition empty_data : DataBook := mkDataBook [] [] [] [].

Definition seed_auth : AuthBook :=
  mkAuthBook
    [mkUserRow "admin" (Str (hash_pw "Admin@2028")) (Str "Admin") true]
    [mkSettingRow (Str "camera_index") (Str "0");
     mkSettingRow (Str "backup_enabled") (Str "1");
     mkSettingRow (Str "ad_server") (Str "");
     mkSettingRow (Str "ad_base_dn") (Str "");
     mkSettingRow (Str "ad_user") (Str "")].

Definition set_data (f : file DataBook) (d : Disk) : Disk :=
  mkDisk f (auth_file d) (copies d).
Definition set_auth (f : file AuthBook) (d : Disk) : Disk :=
  mkDisk (data_file d) f (copies d).
Definition set_copy (path : string) (b : blob) (d : Disk) : Disk :=
  mkDisk (data_file d) (auth_file d) (<[path := b]> (copies d)).

(** [_create_workbook(DATA_FILE, DATA_SPEC, seed_auth=False)] and
    [_create_workbook(AUTH_FILE, AUTH_SPEC, seed_auth=True)]. *)
Definition _create_workbook (t : target) (d : Disk) : Disk :=
  match t with
  | DataFile => set_data (Workbook empty_data) d
  | AuthFile => set_auth (Workbook seed_auth) d
  end.

(** The quarantine of [_add_missing_sheets]: the unreadable file is moved to
    [<root>_corrupt_<ts>.xlsx] (a failed move is ignored) and a fresh workbook
    takes its place.  A workbook that opens has all its sheets here. *)
Definition quarantine (e : Env) (t : target) (d : Disk) : Disk :=
  let bad := (splitext t).1 +:+ "_corrupt_" +:+ stamp e +:+ ".xlsx" in
  _create_workbook t (if move_ok e then set_copy bad Garbage d else d).

Definition ensure_workbooks_exist (e : Env) (d : Disk) : Disk :=
  let d1 :=
    match data_file d with
    | Absent => _create_workbook DataFile d
    | Corrupt => quarantine e DataFile d
    | Workbook _ => d
    end in
  match auth_file d1 with
  | Absent => _create_workbook AuthFile d1
  | Corrupt => quarantine e AuthFile d1
  | Workbook _ => d1
  end.

(** [settings_to_dict]: later rows win. *)
Definition settings_to_dict (df : list SettingRow) : gmap string string :=
  foldl (λ s r,
           <[strip (str (Key r)) :=
               match Value r with NaN => "" | Str v => v end]> s)
        ∅ df.

(** The first half of [_backup_file_if_enabled]: [true] when the function
    returns before copying.  Reading the Settings sheet of an unreadable
    [AUTH_FILE] raises, which the function ignores. *)
Definition backup_disabled (d : Disk) : bool :=
  match auth_file d with
  | Workbook b =>
      bool_decide
        (default "1" (settings_to_dict (Settings b) !! "backup_enabled") ≠ "1")
  | Absent | Corrupt => false
  end.

(** What [shutil.copy2] reads at a backing file; [None] when the path does
    not exist. *)
Definition read_target (t : target) (d : Disk) : option blob :=
  match t with
  | DataFile =>
      match data_file d with
      | Absent => None
      | Corrupt => Some Garbage
      | Workbook b => Some (DataBlob b)
      end
  | AuthFile =>
      match auth_file d with
      | Absent => None
      | Corrupt => Some Garbage
      | Workbook b => Some (AuthBlob b)
      end
  end.

Definition backup_path (e : Env) (t : target) : string :=
  (splitext t).1 +:+ "_backup_" +:+ stamp e +:+ (splitext t).2.

Definition _backup_file_if_enabled (e : Env) (t : target) (d : Disk) : Disk :=
  if backup_disabled d then d
  else
    match read_target t d with
    | Some b => if copy_ok e then set_copy (backup_path e t) b d else d
    | None => d
    end.

(** ** Loading and saving sheets *)

(** A data frame together with the sheet it belongs to: the two arguments
    of [save_sheet]. *)
Inductive frame : Type :=
  | InventoryFrame (df : list InventoryRow)
  | IssuedFrame (df : list IssuedRow)
  | HistoryFrame (df : list HistoryRow)
  | StaffFrame (df : list StaffRow)
  | UsersFrame (df : list UserRow)
  | SettingsFrame (df : list SettingRow).

Definition sheet_of (f : frame) : sheet :=
  match f with
  | InventoryFrame _ => INVENTORY_SHEET
  | IssuedFrame _ => ISSUED_SHEET
  | HistoryFrame _ => HISTORY_SHEET
  | StaffFrame _ => STAFF_SHEET
  | UsersFrame _ => USERS_SHEET
  | SettingsFrame _ => SETTINGS_SHEET
  end.

Definition replace_data_sheet (f : frame) (b : DataBook) : DataBook :=
  match f with
  | InventoryFrame df => mkDataBook df (Issued b) (History b) (Staff b)
  | IssuedFrame df => mkDataBook (Inventory b) df (History b) (Staff b)
  | HistoryFrame df => mkDataBook (Inventory b) (Issued b) df (Staff b)
  | StaffFrame df => mkDataBook (Inventory b) (Issued b) (History b) df
  | UsersFrame _ | SettingsFrame _ => b
  end.

Definition replace_auth_sheet (f : frame) (b : AuthBook) : AuthBook :=
  match f with
  | UsersFrame df => mkAuthBook df (Settings b)
  | SettingsFrame df => mkAuthBook (Users b) df
  | _ => b
  end.

(** The [ExcelWriter(mode="a", if_sheet_exists="replace")] block of
    [save_sheet]: one sheet is replaced, the others are kept.  It is reached
    after [ensure_workbooks_exist], when both files are workbooks. *)
Definition write_frame (f : frame) (d : Disk) : Disk :=
  match get_file_for_sheet (sheet_of f) with
  | DataFile =>
      match data_file d with
      | Workbook b => set_data (Workbook (replace_data_sheet f b)) d
      | Absent | Corrupt => d
      end
  | AuthFile =>
      match auth_file d with
      | Workbook b => set_auth (Workbook (replace_auth_sheet f b)) d
      | Absent | Corrupt => d
      end
  end.

Definition save_sheet (e : Env) (f : frame) (d : Disk) : Disk :=
  let d1 := ensure_workbooks_exist e d in
  let d2 := _backup_file_if_enabled e (get_file_for_sheet (sheet_of f)) d1 in
  write_frame f d2.

(** [pd.read_excel] of one sheet; a failed read gives the empty frame. *)
Definition read_data {A} (get : DataBook → list A) (d : Disk) : list A :=
  match data_file d with
  | Workbook b => get b
  | Absent | Corrupt => []
  end.

Definition read_auth {A} (get : AuthBook → list A) (d : Disk) : list A :=
  match auth_file d with
  | Workbook b => get b
  | Absent | Corrupt => []
  end.

(** The Available normalisation of [load_sheet]. *)
Definition normalise_available (r : InventoryRow) : InventoryRow :=
  mkInventoryRow (Product_Name r) (Category r) (Serial_Number r) (Barcode r)
    (if truthy (Available r) then "Yes" else "No")
    (Location r) (Quantity r) (Unit_Price r) (Low_Stock_Threshold r).

(** [load_sheet(INVENTORY_SHEET, INVENTORY_COLUMNS)]: the frame and the disk
    after [ensure_workbooks_exist]. *)
Definition load_inventory (e : Env) (d : Disk) : list InventoryRow * Disk :=
  let d1 := ensure_workbooks_exist e d in
  (normalise_available <$> read_data Inventory d1, d1).

(** [load_sheet] of the other sheets: their columns come back as stored
    (text stays text, [Active] is already a boolean). *)
Definition load_issued (e : Env) (d : Disk) : list IssuedRow * Disk :=
  let d1 := ensure_workbooks_exist e d in (read_data Issued d1, d1).

Definition load_history (e : Env) (d : Disk) : list HistoryRow * Disk :=
  let d1 := ensure_workbooks_exist e d in (read_data History d1, d1).

Definition load_users (e : Env) (d : Disk) : list UserRow * Disk :=
  let d1 := ensure_workbooks_exist e d in (read_auth Users d1, d1).

(** [append_history(user, action, details)]; [user] is [None] or a name. *)
Definition append_history (e : Env) (user : option string)
    (action details : string) (d : Disk) : Disk :=
  let '(hist, d1) := load_history e d in
  save_sheet e
    (HistoryFrame (hist ++ [mkHistoryRow (now e) (default "" user) action details]))
    d1.

Definition default_hash : string := hash_pw "Admin@2028".

Definition ensure_admin_user (e : Env) (d : Disk) : Disk :=
  let '(users, d1) := load_users e d in
  match list_find (λ r, lower (Username r) = "admin") users with
  | Some (i, r) =>
      let h :=
        if bool_decide (strip (str (PasswordHash r)) = "")
        then Str default_hash else PasswordHash r in
      save_sheet e
        (UsersFrame (<[i := mkUserRow (Username r) h (Str "Admin") true]> users))
        d1
  | None =>
      let users' :=
        users ++ [mkUserRow "admin" (Str default_hash) (Str "Admin") true] in
      let d2 :=
        append_history e (Some "system") "SEED_ADMIN" "Built-in admin created" d1 in
      save_sheet e (UsersFrame users') d2
  end.

(** ** The application *)

(** The fields of [InventoryApp] the operations below read or write. *)
Record App : Type := mkApp {
  inventory_df : list InventoryRow;
  issued_df : list IssuedRow;
  users_df : list UserRow;
  current_user : option string;
  current_role : string;
  disk : Disk
}.

(** The message box an operation ends with, if any. *)
Inductive message : Type :=
  | showerror (title text : string)
  | showinfo (title text : string).

Definition set_inventory (inv : list InventoryRow) (a : App) : App :=
  mkApp inv (issued_df a) (users_df a) (current_user a) (current_role a) (disk a).
Definition set_issued (iss : list IssuedRow) (a : App) : App :=
  mkApp (inventory_df a) iss (users_df a) (current_user a) (current_role a) (disk a).
Definition set_disk (d : Disk) (a : App) : App :=
  mkApp (inventory_df a) (issued_df a) (users_df a) (current_user a)
    (current_role a) d.

(** [_refresh_inventory_table]: the reload of [inventory_df]. *)
Definition _refresh_inventory_table (e : Env) (a : App) : App :=
  let '(inv, d) := load_inventory e (disk a) in
  set_inventory inv (set_disk d a).

(** [show_issued]: the reload of [issued_df]. *)
Definition show_issued (e : Env) (a : App) : App :=
  let '(iss, d) := load_issued e (disk a) in
  set_issued iss (set_disk d a).

(** [role if role in ROLES else "Viewer"] on the Role cell. *)
Definition role_of (role : cell) : string :=
  match role with
  | Str s => if bool_decide (s ∈ ROLES) then s else "Viewer"
  | NaN => "Viewer"
  end.

Definition _login (username_var password_var : string) (e : Env) (a : App)
    : option message * App :=
  let u := strip username_var in
  let p := strip password_var in
  let '(users, d) := load_users e (disk a) in
  let a1 := mkApp (inventory_df a) (issued_df a) users (current_user a)
              (current_role a) d in
  let sel := filter (λ r, Username r = u ∧ Active r = true) users in
  match sel with
  | r :: _ =>
      if check_pw p (PasswordHash r) then
        let role := role_of (Role r) in
        let d1 := append_history e (Some u) "LOGIN" ("Role=" +:+ role) d in
        (None, mkApp (inventory_df a) (issued_df a) users (Some u) role d1)
      else (Some (showerror "Login failed" "Invalid username or password."), a1)
  | [] => (Some (showerror "Login failed" "Invalid username or password."), a1)
  end.

Definition is_admin (a : App) : bool := bool_decide (current_role a = "Admin").
Definition is_clerk (a : App) : bool :=
  bool_decide (current_role a ∈ ["Admin"; "Clerk"]).

Definition _find_item_index (inv : list InventoryRow) (serial barcode : string)
    : option nat :=
  let by_serial :=
    if bool_decide (serial ≠ "")
    then fst <$> list_find (λ r, Serial_Number r = serial) inv
    else None in
  match by_serial with
  | Some i => Some i
  | None =>
      if bool_decide (barcode ≠ "")
      then fst <$> list_find (λ r, Barcode r = barcode) inv
      else None
  end.

(** Python's [a or b] on two strings. *)
Definition or_else (a b : string) : string :=
  if bool_decide (a = "") then b else a.

(** *** Add and edit *)

(** The text of the nine entry fields of [_item_form] ([vars_]). *)
Record ItemForm : Type := mkItemForm {
  f_Product_Name : string;
  f_Category : string;
  f_Serial_Number : string;
  f_Barcode : string;
  f_Available : string;
  f_Location : string;
  f_Quantity : string;
  f_Unit_Price : string;
  f_Low_Stock_Threshold : string
}.

Inductive form_mode : Type :=
  | Add
  | Edit (df_index : nat).

(** [int(float(s or 0))], 0 when it raises. *)
Definition int_field (s : string) : Z :=
  if bool_decide (s = "") then 0
  else default 0 (float_of_string s ≫= int_of_float).

(** [float(s or 0.0)], 0.0 when it raises. *)
Definition float_field (s : string) : float :=
  if bool_decide (s = "") then float_zero
  else default float_zero (float_of_string s).

(** [new_row] of [save_item] after the "types/defaults" block. *)
Definition new_row_of (f : ItemForm) : InventoryRow :=
  mkInventoryRow
    (strip (f_Product_Name f)) (strip (f_Category f))
    (strip (f_Serial_Number f)) (strip (f_Barcode f))
    (if bool_decide (strip (f_Available f) = "") then "Yes"
     else strip (f_Available f))
    (strip (f_Location f))
    (int_field (strip (f_Quantity f)))
    (float_field (strip (f_Unit_Price f)))
    (int_field (strip (f_Low_Stock_Threshold f))).

(** [v if v != "" else old] for a text column. *)
Definition overwrite (old v : string) : string :=
  if bool_decide (v ≠ "") then v else old.

(** The merge branch of [save_item]: the quantity is added, and every column
    of the loop whose new value differs from [""] is overwritten.  The values
    of Unit Price and Low Stock Threshold are numbers and the value of
    Available was defaulted to ["Yes"], so none of the three equals [""]. *)
Definition merge_row (new_row old : InventoryRow) : InventoryRow :=
  mkInventoryRow
    (overwrite (Product_Name old) (Product_Name new_row))
    (overwrite (Category old) (Category new_row))
    (overwrite (Serial_Number old) (Serial_Number new_row))
    (overwrite (Barcode old) (Barcode new_row))
    (overwrite (Available old) (Available new_row))
    (overwrite (Location old) (Location new_row))
    (Quantity old + Quantity new_row)
    (Unit_Price new_row)
    (Low_Stock_Threshold new_row).

Definition save_item (mode : form_mode) (f : ItemForm) (e : Env) (a : App)
    : option message * App :=
  let new_row := new_row_of f in
  if bool_decide (Serial_Number new_row = "" ∧ Barcode new_row = "")
  then (Some (showerror "Error" "Enter Serial Number or Barcode."), a)
  else
    let ix := _find_item_index (inventory_df a) (Serial_Number new_row)
                (Barcode new_row) in
    let '(inv, d1) :=
      match mode with
      | Add =>
          match ix with
          | Some ix =>
              (alter (merge_row new_row) ix (inventory_df a),
               append_history e (current_user a) "EDIT"
                 ("Merge add SN:" +:+ Serial_Number new_row +:+ " BC:"
                  +:+ Barcode new_row) (disk a))
          | None =>
              (inventory_df a ++ [new_row],
               append_history e (current_user a) "ADD"
                 ("SN:" +:+ Serial_Number new_row +:+ " BC:"
                  +:+ Barcode new_row) (disk a))
          end
      | Edit df_index =>
          (* [.at] on a label that is not in the index enlarges the frame *)
          ((if bool_decide (df_index < length (inventory_df a))%nat
            then <[df_index := new_row]> (inventory_df a)
            else inventory_df a ++ [new_row]),
           append_history e (current_user a) "EDIT"
             ("idx=" +:+ pretty df_index) (disk a))
      end in
    let d2 := save_sheet e (InventoryFrame inv) d1 in
    (None, _refresh_inventory_table e (set_inventory inv (set_disk d2 a))).

(** [delete_item] for the selected row [idx]; [confirm] is the answer to the
    confirmation dialog. *)
Definition delete_item (idx : nat) (confirm : bool) (e : Env) (a : App)
    : option message * App :=
  match inventory_df a !! idx with
  | None => (None, a)
  | Some row =>
      let sn := Serial_Number row in
      if negb confirm then (None, a)
      else
        let inv := delete idx (inventory_df a) in
        let d1 := save_sheet e (InventoryFrame inv) (disk a) in
        let d2 := append_history e (current_user a) "DELETE" ("SN:" +:+ sn) d1 in
        (Some (showinfo "Deleted" ("Item with Serial Number " +:+ sn +:+ " deleted.")),
         _refresh_inventory_table e (set_inventory inv (set_disk d2 a)))
  end.

(** *** Issue and return *)

Definition set_available (v : string) (r : InventoryRow) : InventoryRow :=
  mkInventoryRow (Product_Name r) (Category r) (Serial_Number r) (Barcode r)
    v (Location r) (Quantity r) (Unit_Price r) (Low_Stock_Threshold r).

(** The Issued row built from the inventory row [r]. *)
Definition issued_record (r : InventoryRow) (staff dept pos : string)
    (e : Env) : IssuedRow :=
  mkIssuedRow (Product_Name r) (Category r) (Serial_Number r) (Barcode r)
    staff dept pos (now e).

Definition do_issue (code_var staff_var dept_var pos_var : string)
    (e : Env) (a : App) : option message * App :=
  let code := strip code_var in
  match _find_item_index (inventory_df a) code code with
  | None =>
      (Some (showerror "Not found"
               ("No inventory item with code '" +:+ code +:+ "'.")), a)
  | Some ix =>
      if negb (is_clerk a)
      then (Some (showerror "Permission" "Insufficient permissions."), a)
      else
        match inventory_df a !! ix with
        | None => (None, a)     (* [ix] is a position of the frame *)
        | Some r =>
            if negb (truthy (Available r))
            then (Some (showerror "Stock" "Item already issued."), a)
            else
              let staff := strip staff_var in
              if bool_decide (staff = "")
              then (Some (showerror "Missing" "Select staff."), a)
              else
                let inv := alter (set_available "No") ix (inventory_df a) in
                let iss :=
                  issued_df a ++ [issued_record r staff dept_var pos_var e] in
                let d1 := save_sheet e (InventoryFrame inv) (disk a) in
                let d2 := save_sheet e (IssuedFrame iss) d1 in
                let who := or_else (Serial_Number r) (Barcode r) in
                let d3 :=
                  append_history e (current_user a) "ISSUE"
                    (who +:+ " -> " +:+ staff) d2 in
                (Some (showinfo "Issued" ("Issued " +:+ who +:+ " to " +:+ staff)),
                 _refresh_inventory_table e
                   (set_issued iss (set_inventory inv (set_disk d3 a))))
        end
  end.

(** The codes of a batch: [[c.strip() for c in lines if c.strip()]]. *)
Definition codes_of (lines : list string) : list string :=
  filter (λ c, c ≠ "") (strip <$> lines).

(** One iteration of the loop of batch issue on the two frames and the
    counter. *)
Definition batch_issue_step (staff dept pos : string) (e : Env)
    (st : list InventoryRow * list IssuedRow * nat) (code : string)
    : list InventoryRow * list IssuedRow * nat :=
  let '(inv, iss, count) := st in
  match _find_item_index inv code code with
  | None => st
  | Some ix =>
      match inv !! ix with
      | None => st
      | Some r =>
          if bool_decide (lower (strip (Available r)) ≠ "yes") then st
          else (alter (set_available "No") ix inv,
                iss ++ [issued_record r staff dept pos e],
                S count)
      end
  end.

(** [process] of [batch_issue]; [lines] is the text of the box split into
    lines. *)
Definition batch_issue (lines : list string) (staff_var dept_var pos_var : string)
    (e : Env) (a : App) : option message * App :=
  if bool_decide (strip staff_var = "")
  then (Some (showerror "Missing" "Select staff."), a)
  else
    let '(inv, iss, count) :=
      foldl (batch_issue_step staff_var dept_var pos_var e)
        (inventory_df a, issued_df a, 0%nat) (codes_of lines) in
    let d :=
      if bool_decide (count ≠ 0%nat) then
        let d1 := save_sheet e (InventoryFrame inv) (disk a) in
        let d2 := save_sheet e (IssuedFrame iss) d1 in
        append_history e (current_user a) "ISSUE_BATCH"
          (pretty count +:+ " items -> " +:+ staff_var) d2
      else disk a in
    (Some (showinfo "Batch Issue" ("Issued " +:+ pretty count +:+ " items.")),
     _refresh_inventory_table e (set_issued iss (set_inventory inv (set_disk d a)))).

(** The scan of [do_return] over the Issued frame. *)
Definition find_issued (iss : list IssuedRow) (code : string)
    : option (nat * IssuedRow) :=
  list_find (λ r, iss_Serial_Number r = code ∨ iss_Barcode r = code) iss.

(** The inventory row fabricated on return when no row matches. *)
Definition new_inv (row : IssuedRow) : InventoryRow :=
  mkInventoryRow (iss_Product_Name row) (iss_Category row)
    (iss_Serial_Number row) (iss_Barcode row) "Yes" "" 1 float_zero 0.

(** The update of the two frames shared by [do_return] and batch return. *)
Definition return_frames (inv : list InventoryRow) (iss : list IssuedRow)
    (ix : nat) (row : IssuedRow) : list InventoryRow * list IssuedRow :=
  let inv' :=
    match _find_item_index inv (iss_Serial_Number row) (iss_Barcode row) with
    | None => inv ++ [new_inv row]
    | Some inv_ix => alter (set_available "Yes") inv_ix inv
    end in
  (inv', delete ix iss).

Definition do_return (code_var : string) (e : Env) (a : App)
    : option message * App :=
  let code := strip code_var in
  match find_issued (issued_df a) code with
  | None =>
      (Some (showerror "Not found"
               ("No issued record with code '" +:+ code +:+ "'.")), a)
  | Some (ix, row) =>
      let '(inv, iss) := return_frames (inventory_df a) (issued_df a) ix row in
      let d1 := save_sheet e (InventoryFrame inv) (disk a) in
      let d2 := save_sheet e (IssuedFrame iss) d1 in
      let who := or_else (iss_Serial_Number row) (iss_Barcode row) in
      let d3 := append_history e (current_user a) "RETURN" who d2 in
      (Some (showinfo "Returned" ("Returned " +:+ who)),
       show_issued e (set_issued iss (set_inventory inv (set_disk d3 a))))
  end.

Definition batch_return_step (st : list InventoryRow * list IssuedRow * nat)
    (code : string) : list InventoryRow * list IssuedRow * nat :=
  let '(inv, iss, count) := st in
  match find_issued iss code with
  | None => st
  | Some (ix, row) =>
      let '(inv', iss') := return_frames inv iss ix row in
      (inv', iss', S count)
  end.

(** [process] of [batch_return]. *)
Definition batch_return (lines : list string) (e : Env) (a : App)
    : option message * App :=
  let '(inv, iss, count) :=
    foldl batch_return_step (inventory_df a, issued_df a, 0%nat)
      (codes_of lines) in
  let d :=
    if bool_decide (count ≠ 0%nat) then
      let d1 := save_sheet e (InventoryFrame inv) (disk a) in
      let d2 := save_sheet e (IssuedFrame iss) d1 in
      append_history e (current_user a) "RETURN_BATCH"
        (pretty count +:+ " items") d2
    else disk a in
  (Some (showinfo "Batch Return" ("Returned " +:+ pretty count +:+ " items.")),
   show_issued e (set_issued iss (set_inventory inv (set_disk d a)))).

(** *** Users *)

(** [save_user] of the settings form: the text of the username and password
    entries, the chosen role and the Active box. *)
Definition save_user (un ro : string) (ac : bool) (pw : string)
    (e : Env) (a : App) : option message * App :=
  if bool_decide (strip un = "")
  then (Some (showerror "User" "Username required"), a)
  else
    let '(users, d1) := load_users e (disk a) in
    let users' :=
      match list_find (λ r, Username r = strip un) users with
      | Some (i, r) =>
          let h :=
            if bool_decide (strip pw ≠ "") then Str (hash_pw (strip pw))
            else PasswordHash r in
          <[i := mkUserRow (Username r) h (Str ro) ac]> users
      | None =>
          users ++
            [mkUserRow (strip un)
               (Str (hash_pw (or_else (strip pw) "ChangeMe123!"))) (Str ro) ac]
      end in
    let d2 := ensure_admin_user e (save_sheet e (UsersFrame users') d1) in
    let '(users'', d3) := load_users e d2 in
    (Some (showinfo "Users" "Saved."),
     mkApp (inventory_df a) (issued_df a) users'' (current_user a)
       (current_role a) d3).

(** *** Start and logout *)

(** The module-level start ([ensure_workbooks_exist(); ensure_admin_user()])
    followed by [InventoryApp.__init__]. *)
Definition startup (e : Env) (d : Disk) : App :=
  let d1 := ensure_admin_user e (ensure_workbooks_exist e d) in
  let '(inv, d2) := load_inventory e d1 in
  let '(iss, d3) := load_issued e d2 in
  let '(users, d4) := load_users e d3 in
  mkApp inv iss users None "Viewer" d4.

Definition logout (e : Env) (a : App) : App :=
  let d1 := append_history e (current_user a) "LOGOUT" "" (disk a) in
  let '(inv, d2) := load_inventory e d1 in
  let '(iss, d3) := load_issued e d2 in
  let '(users, d4) := load_users e d3 in
  mkApp inv iss users None "Viewer" (ensure_admin_user e d4).

(** The store before the first run: no file on disk. *)
Definition empty_disk : Disk := mkDisk Absent Absent ∅.

(** ** Notions the statements below use *)

(** The workbook a backing file holds once [ensure_workbooks_exist] has run:
    a file that is absent or unreadable is replaced by a fresh one. *)
Definition data_book (d : Disk) : DataBook :=
  match data_file d with
  | Workbook b => b
  | Absent | Corrupt => empty_data
  end.

Definition auth_book (d : Disk) : AuthBook :=
  match auth_file d with
  | Workbook b => b
  | Absent | Corrupt => seed_auth
  end.

(** [i] is the first position of [l] whose row satisfies [P]. *)
Definition first_index {A} (P : A → Prop) (l : list A) (i : nat) : Prop :=
  (∃ x, l !! i = Some x ∧ P x) ∧
  ∀ j y, (j < i)%nat → l !! j = Some y → ¬ P y.





(** ** Issued records and availability *)

(** The Issued row [i] carries the identity of the inventory row [r]: its
    serial number is the row's, which is not empty, or its barcode is. *)
Definition same_identity (r : InventoryRow) (i : IssuedRow) : Prop :=
  (Serial_Number r ≠ "" ∧ iss_Serial_Number i = Serial_Number r)
  ∨ (Barcode r ≠ "" ∧ iss_Barcode i = Barcode r).

(** How many Issued rows carry the identity of [r]. *)
Definition records_of (iss : list IssuedRow) (r : InventoryRow) : nat :=
  length (filter (same_identity r) iss).

(** An item is unavailable exactly when one Issued row carries its identity,
    and an available item has none. *)
Definition issued_iff_unavailable (inv : list InventoryRow)
    (iss : list IssuedRow) : Prop :=
  ∀ r, r ∈ inv →
    (Available r = "No" ↔ records_of iss r = 1%nat)
    ∧ (Available r = "Yes" → records_of iss r = 0%nat).

(** The property on the two sheets of the store. *)
Definition store_consistent (a : App) : Prop :=
  issued_iff_unavailable (Inventory (data_book (disk a)))
    (Issued (data_book (disk a))).

(** The states the application reaches from a disk without files. *)
Inductive reachable : App → Prop :=
  | reach_start e : reachable (startup e empty_disk)
  | reach_login u p e a : reachable a → reachable (_login u p e a).2
  | reach_logout e a : reachable a → reachable (logout e a)
  | reach_add f e a : reachable a → reachable (save_item Add f e a).2
  | reach_edit i f e a : reachable a → reachable (save_item (Edit i) f e a).2
  | reach_delete i c e a : reachable a → reachable (delete_item i c e a).2
  | reach_issue code staff dept pos e a :
      reachable a → reachable (do_issue code staff dept pos e a).2
  | reach_batch_issue lines staff dept pos e a :
      reachable a → reachable (batch_issue lines staff dept pos e a).2
  | reach_return code e a : reachable a → reachable (do_return code e a).2
  | reach_batch_return lines e a :
      reachable a → reachable (batch_return lines e a).2
  | reach_save_user un ro ac pw e a :
      reachable a → reachable (save_user un ro ac pw e a).2.

(** [new_row] leaves the serial number, the barcode and the Available flag
    of [old] as they are. *)
Definition keeps_identity (old new_row : InventoryRow) : Prop :=
  Serial_Number new_row = Serial_Number old
  ∧ Barcode new_row = Barcode old
  ∧ Available new_row = Available old.

(** The states reached when the Available flag only changes through issues
    and returns:
    - an add of an identity the lookup does not find leaves the Available
      field blank or sets it to "Yes";
    - an add that merges, and an edit, keep the serial number, the barcode
      and the Available flag of the row;
    - a deletion removes a row that is available. *)
Inductive reachable_core : App → Prop :=
  | core_start e : reachable_core (startup e empty_disk)
  | core_login u p e a : reachable_core a → reachable_core (_login u p e a).2
  | core_logout e a : reachable_core a → reachable_core (logout e a)
  | core_add f e a :
      reachable_core a →
      _find_item_index (inventory_df a) (Serial_Number (new_row_of f))
        (Barcode (new_row_of f)) = None →
      strip (f_Available f) = "" ∨ strip (f_Available f) = "Yes" →
      reachable_core (save_item Add f e a).2
  | core_merge f e a ix old :
      reachable_core a →
      _find_item_index (inventory_df a) (Serial_Number (new_row_of f))
        (Barcode (new_row_of f)) = Some ix →
      inventory_df a !! ix = Some old →
      keeps_identity old (merge_row (new_row_of f) old) →
      reachable_core (save_item Add f e a).2
  | core_edit i f e a old :
      reachable_core a →
      inventory_df a !! i = Some old →
      keeps_identity old (new_row_of f) →
      reachable_core (save_item (Edit i) f e a).2
  | core_delete i c e a old :
      reachable_core a →
      inventory_df a !! i = Some old →
      Available old = "Yes" →
      reachable_core (delete_item i c e a).2
  | core_issue code staff dept pos e a :
      reachable_core a → reachable_core (do_issue code staff dept pos e a).2
  | core_batch_issue lines staff dept pos e a :
      reachable_core a →
      reachable_core (batch_issue lines staff dept pos e a).2
  | core_return code e a :
      reachable_core a → reachable_core (do_return code e a).2
  | core_batch_return lines e a :
      reachable_core a → reachable_core (batch_return lines e a).2
  | core_save_user un ro ac pw e a :
      reachable_core a → reachable_core (save_user un ro ac pw e a).2.

(** No two accounts of the Users sheet share a username. *)
Definition users_unique (d : Disk) : Prop :=
  NoDup (Username <$> Users (auth_book d)).






End Store.

(** * An instance of the library, and sample data

    The statements of the next part hold for every [PyLib].  To run the model
    on examples, [py] takes binary64 floats for [float], Python's truncation
    for [int(f)], and reads [float(s)] on plain decimal numerals
    ([digits], [digits.digits]) that convert exactly; every other string
    counts as one on which [float(s)] raises.  Its hash is a stand-in that
    tags the text. *)

Definition digit_of (c : ascii) : option Z :=
  let n := Z.of_N (N_of_ascii c) in
  if (48 <=? n) && (n <=? 57) then Some (n - 48) else None.

(** The leading digits of [s]: their value added to [10^k * acc], how many
    were read added to [n], and the rest of [s]. *)
Fixpoint read_digits (s : string) (acc : Z) (n : nat) : Z * nat * string :=
  match s with
  | EmptyString => (acc, n, EmptyString)
  | String c s' =>
      match digit_of c with
      | Some d => read_digits s' (10 * acc + d) (S n)
      | None => (acc, n, s)
      end
  end.

Definition float_of_Z (z : Z) : PrimFloat.float :=
  PrimFloat.of_uint63 (Uint63.of_Z z).

Definition decimal_float (s : string) : option PrimFloat.float :=
  let '(ip, n1, rest) := read_digits s 0 0%nat in
  match rest with
  | EmptyString =>
      if bool_decide (n1 ≠ 0%nat ∧ ip < 2 ^ 53) then Some (float_of_Z ip) else None
  | String c rest' =>
      if bool_decide (c = "."%char) then
        let '(all, n2, rest'') := read_digits rest' ip 0%nat in
        if bool_decide (rest'' = "" ∧ (n1 + n2 ≠ 0)%nat ∧ all < 2 ^ 53
                        ∧ (n2 ≤ 15)%nat)
        then Some (float_of_Z all / float_of_Z (10 ^ Z.of_nat n2))%float
        else None
      else None
  end.

(** [int(f)]: truncation towards zero; infinities and NaN raise. *)
Definition trunc_float (f : PrimFloat.float) : option Z :=
  match Prim2SF f with
  | S754_zero _ => Some 0
  | S754_finite s m e =>
      let v := if 0 <=? e then Z.shiftl (Zpos m) e else Z.shiftr (Zpos m) (- e) in
      Some (if s then - v else v)
  | S754_infinity _ | S754_nan => None
  end.

Definition py : PyLib := {|
  float := PrimFloat.float;
  float_zero := 0%float;
  float_of_string := decimal_float;
  int_of_float := trunc_float;
  sha256_hexdigest := λ s, "sha256:" +:+ s
|}.

Definition env0 : Env := mkEnv "2024-05-01 09:00:00" "20240501_090000" true true.

(** The application after its first start, and after the built-in admin
    logged in. *)
Definition app0 : App (lib := py) := startup env0 empty_disk.
Definition app1 : App (lib := py) := (_login "admin" "Admin@2028" env0 app0).2.

(** Forms and states of the examples. *)
Definition form_laptop : ItemForm :=
  mkItemForm "Laptop" "IT" "SN1" "" "" "Store A" "5" "10.0" "2".
Definition form_more : ItemForm :=
  mkItemForm "" "" "SN1" "" "" "" "3" "" "".
Definition form_unavailable : ItemForm :=
  mkItemForm "Laptop" "IT" "SN1" "" "No" "" "1" "" "".

(** One laptop added, then issued to alice. *)
Definition app_added : App (lib := py) := (save_item Add form_laptop env0 app1).2.
Definition app_issued : App (lib := py) :=
  (do_issue "SN1" "alice" "IT" "Engineer" env0 app_added).2.



(** * Properties *)

Section Properties.

Context {lib : PyLib}.

(** ** Stripping *)






Lemma lstrip_whitespace ws : whitespace ws = true → lstrip ws = "".
Proof.
  induction ws as [|c ws IH]; simpl; [done|].
  intros [Hc Hws]%andb_true_iff. rewrite Hc; auto.
Qed.

Lemma rstrip_whitespace ws : whitespace ws = true → rstrip ws = "".
Proof.
  induction ws as [|c ws IH]; simpl; [done|].
  intros [Hc Hws]%andb_true_iff. rewrite IH, Hc; done.
Qed.

Lemma lstrip_app_l ws s : whitespace ws = true → lstrip (ws +:+ s) = lstrip s.
Proof.
  induction ws as [|c ws IH]; simpl; [done|].
  intros [Hc Hws]%andb_true_iff. rewrite Hc. auto.
Qed.

Lemma rstrip_app_r s ws : whitespace ws = true → rstrip (s +:+ ws) = rstrip s.
Proof.
  intros Hws. induction s as [|c s IH]; simpl.
  - by apply rstrip_whitespace.
  - by rewrite IH.
Qed.

Lemma strip_app_r s ws : whitespace ws = true → strip (s +:+ ws) = strip s.
Proof.
  intros Hws. unfold strip. induction s as [|c s IH]; simpl.
  - by rewrite lstrip_whitespace.
  - destruct (isspace c); [done|].
    change (String c (s +:+ ws)) with (String c s +:+ ws).
    by apply rstrip_app_r.
Qed.

Lemma strip_surround l s r :
  whitespace l = true → whitespace r = true → strip (l +:+ s +:+ r) = strip s.
Proof.
  intros Hl Hr. unfold strip at 1. rewrite lstrip_app_l by done.
  by apply strip_app_r.
Qed.

(** ** The disk *)

Lemma ensure_data_file e d :
  data_file (ensure_workbooks_exist e d) = Workbook (data_book d).
Proof.
  unfold ensure_workbooks_exist, quarantine, data_book.
  destruct d as [[| |b] [| |b'] c]; simpl; destruct (move_ok e); done.
Qed.

Lemma ensure_auth_file e d :
  auth_file (ensure_workbooks_exist e d) = Workbook (auth_book d).
Proof.
  unfold ensure_workbooks_exist, quarantine, auth_book.
  destruct d as [[| |b] [| |b'] c]; simpl; destruct (move_ok e); done.
Qed.

Lemma ensure_data_book e d : data_book (ensure_workbooks_exist e d) = data_book d.
Proof. unfold data_book at 1. by rewrite ensure_data_file. Qed.

Lemma ensure_auth_book e d : auth_book (ensure_workbooks_exist e d) = auth_book d.
Proof. unfold auth_book at 1. by rewrite ensure_auth_file. Qed.

(** Once both files are workbooks, [ensure_workbooks_exist] changes nothing. *)
Lemma ensure_workbooks_id e d b b' :
  data_file d = Workbook b → auth_file d = Workbook b' →
  ensure_workbooks_exist e d = d.
Proof.
  destruct d as [df af c]; simpl. intros -> ->. done.
Qed.

Lemma ensure_idemp e e' d :
  ensure_workbooks_exist e' (ensure_workbooks_exist e d) = ensure_workbooks_exist e d.
Proof. eapply ensure_workbooks_id; [apply ensure_data_file|apply ensure_auth_file]. Qed.

(** The backup step only adds a copy. *)
Lemma backup_data_file e t d :
  data_file (_backup_file_if_enabled e t d) = data_file d.
Proof.
  unfold _backup_file_if_enabled.
  destruct (backup_disabled d), (read_target t d), (copy_ok e); done.
Qed.

Lemma backup_auth_file e t d :
  auth_file (_backup_file_if_enabled e t d) = auth_file d.
Proof.
  unfold _backup_file_if_enabled.
  destruct (backup_disabled d), (read_target t d), (copy_ok e); done.
Qed.

Lemma save_sheet_data_file e f d :
  data_file (save_sheet e f d) = Workbook (replace_data_sheet f (data_book d)).
Proof.
  unfold save_sheet, write_frame.
  destruct (get_file_for_sheet (sheet_of f)) eqn:Ef.
  - rewrite backup_data_file, ensure_data_file. done.
  - rewrite backup_auth_file, ensure_auth_file. simpl.
    rewrite backup_data_file, ensure_data_file.
    destruct f; simpl in *; done.
Qed.

Lemma save_sheet_auth_file e f d :
  auth_file (save_sheet e f d) = Workbook (replace_auth_sheet f (auth_book d)).
Proof.
  unfold save_sheet, write_frame.
  destruct (get_file_for_sheet (sheet_of f)) eqn:Ef.
  - rewrite backup_data_file, ensure_data_file. simpl.
    rewrite backup_auth_file, ensure_auth_file.
    destruct f; simpl in *; done.
  - rewrite backup_auth_file, ensure_auth_file. done.
Qed.

Lemma save_sheet_data_book e f d :
  data_book (save_sheet e f d) = replace_data_sheet f (data_book d).
Proof. unfold data_book at 1. by rewrite save_sheet_data_file. Qed.

Lemma save_sheet_auth_book e f d :
  auth_book (save_sheet e f d) = replace_auth_sheet f (auth_book d).
Proof. unfold auth_book at 1. by rewrite save_sheet_auth_file. Qed.

Lemma read_data_book {A} (get : DataBook → list A) e d :
  read_data get (ensure_workbooks_exist e d) = get (data_book d).
Proof. unfold read_data. by rewrite ensure_data_file. Qed.

Lemma read_auth_book {A} (get : AuthBook → list A) e d :
  read_auth get (ensure_workbooks_exist e d) = get (auth_book d).
Proof. unfold read_auth. by rewrite ensure_auth_file. Qed.

Lemma append_history_data_book e u act det d :
  data_book (append_history e u act det d) =
  mkDataBook (Inventory (data_book d)) (Issued (data_book d))
    (History (data_book d) ++ [mkHistoryRow (now e) (default "" u) act det])
    (Staff (data_book d)).
Proof.
  unfold append_history, load_history.
  rewrite save_sheet_data_book, ensure_data_book, read_data_book. done.
Qed.

Lemma append_history_auth_book e u act det d :
  auth_book (append_history e u act det d) = auth_book d.
Proof.
  unfold append_history, load_history.
  rewrite save_sheet_auth_book, ensure_auth_book. done.
Qed.

Lemma append_history_data_file e u act det d :
  data_file (append_history e u act det d) =
  Workbook (data_book (append_history e u act det d)).
Proof. unfold append_history, load_history. rewrite save_sheet_data_book. apply save_sheet_data_file. Qed.

Lemma append_history_auth_file e u act det d :
  auth_file (append_history e u act det d) = Workbook (auth_book d).
Proof.
  unfold append_history, load_history.
  rewrite save_sheet_auth_file, ensure_auth_book. done.
Qed.

Create Rewrite HintDb disk.
#[local] Hint Rewrite ensure_data_book ensure_auth_book save_sheet_data_book
  save_sheet_auth_book append_history_data_book append_history_auth_book
  @read_data_book @read_auth_book : disk.

(** ** The lookup rule *)

Lemma list_find_first_index {A} (P : A → Prop) `{∀ x, Decision (P x)}
    (l : list A) (i : nat) :
  fst <$> list_find P l = Some i ↔ first_index P l i.
Proof.
  unfold first_index. split.
  - destruct (list_find P l) as [[j x]|] eqn:E; simpl; [|done].
    intros [= ->]. apply list_find_Some in E as (Hx & HP & Hmin). eauto.
  - intros [(x & Hx & HP) Hmin].
    assert (list_find P l = Some (i, x)) as ->; [|done].
    apply list_find_Some. eauto.
Qed.

Lemma list_find_fst_None {A} (P : A → Prop) `{∀ x, Decision (P x)} (l : list A) :
  fst <$> list_find P l = None ↔ ∀ x, x ∈ l → ¬ P x.
Proof.
  rewrite fmap_None, list_find_None, Forall_forall. done.
Qed.

Lemma find_item_index_Some inv serial barcode i :
  _find_item_index inv serial barcode = Some i ↔
    (serial ≠ "" ∧ first_index (λ r, Serial_Number r = serial) inv i) ∨
    ((serial = "" ∨ ∀ r, r ∈ inv → Serial_Number r ≠ serial) ∧
     barcode ≠ "" ∧ first_index (λ r, Barcode r = barcode) inv i).
Proof.
  unfold _find_item_index.
  case_bool_decide as Hs.
  - destruct (fst <$> list_find (λ r, Serial_Number r = serial) inv)
      as [j|] eqn:E.
    + apply list_find_first_index in E. split.
      * intros [= <-]. by left.
      * intros [[_ Hi]|[[?|Hno] _]]; [|done|].
        -- f_equal. destruct E as [(x & Hx & Px) Hj], Hi as [(y & Hy & Py) Hi'].
           destruct (Nat.lt_trichotomy i j) as [?|[?|?]]; [|done|]; exfalso.
           ++ by eapply Hj.
           ++ by eapply Hi'.
        -- destruct E as [(x & Hx & Px) _]. exfalso.
           eapply Hno; [by eapply list_elem_of_lookup_2|done].
    + pose proof (proj1 (list_find_fst_None _ _) E) as E'. case_bool_decide as Hb.
      * rewrite list_find_first_index. split; [by eauto|].
        intros [[_ [(x & Hx & Px) _]]|(_ & _ & ?)]; [|done].
        exfalso. eapply E'; [by eapply list_elem_of_lookup_2|done].
      * split; [done|]. intros [[_ [(x & Hx & Px) _]]|(_ & ? & _)]; [|done].
        exfalso. eapply E'; [by eapply list_elem_of_lookup_2|done].
  - try apply dec_stable in Hs. case_bool_decide as Hb.
    + rewrite list_find_first_index. split; [by eauto|].
      intros [[? _]|(_ & _ & ?)]; done.
    + split; [done|]. intros [[? _]|(_ & ? & _)]; done.
Qed.


(** The index the lookup returns is a position of the frame. *)
Lemma find_item_index_lookup inv serial barcode i :
  _find_item_index inv serial barcode = Some i → is_Some (inv !! i).
Proof.
  intros [[_ [(x & Hx & _) _]]|(_ & _ & [(x & Hx & _) _])]%find_item_index_Some;
    eauto.
Qed.

(** ** Issue *)


Lemma do_issue_already_issued code_var staff_var dept_var pos_var e a ix r :
  _find_item_index (inventory_df a) (strip code_var) (strip code_var) = Some ix →
  inventory_df a !! ix = Some r →
  is_clerk a = true →
  truthy (Available r) = false →
  do_issue code_var staff_var dept_var pos_var e a =
    (Some (showerror "Stock" "Item already issued."), a).
Proof. unfold do_issue. by intros -> -> -> ->. Qed.

Lemma do_issue_no_staff code_var staff_var dept_var pos_var e a ix r :
  _find_item_index (inventory_df a) (strip code_var) (strip code_var) = Some ix →
  inventory_df a !! ix = Some r →
  is_clerk a = true →
  truthy (Available r) = true →
  strip staff_var = "" →
  do_issue code_var staff_var dept_var pos_var e a =
    (Some (showerror "Missing" "Select staff."), a).
Proof. unfold do_issue. by intros -> -> -> -> ->. Qed.

(** C4.  An issue request whose code matches no inventory row, whose matched
    row is not available, or that names no staff ends with an error box and
    returns the application state it was given: the in-memory frames and the
    disk, hence the Inventory, Issued and History sheets, are unchanged. *)
Theorem do_issue_failure_unchanged code_var staff_var dept_var pos_var e a :
  _find_item_index (inventory_df a) (strip code_var) (strip code_var) = None
  ∨ (∃ ix r,
       _find_item_index (inventory_df a) (strip code_var) (strip code_var)
         = Some ix
       ∧ inventory_df a !! ix = Some r ∧ truthy (Available r) = false)
  ∨ strip staff_var = "" →
  ∃ title text,
    do_issue code_var staff_var dept_var pos_var e a
      = (Some (showerror title text), a)
    ∧ Inventory (data_book (disk (do_issue code_var staff_var dept_var pos_var e a).2))
      = Inventory (data_book (disk a))
    ∧ Issued (data_book (disk (do_issue code_var staff_var dept_var pos_var e a).2))
      = Issued (data_book (disk a))
    ∧ History (data_book (disk (do_issue code_var staff_var dept_var pos_var e a).2))
      = History (data_book (disk a)).
Proof.
  intros H.
  assert (∃ title text,
    do_issue code_var staff_var dept_var pos_var e a
      = (Some (showerror title text), a)) as (title & text & Heq).
  { unfold do_issue.
    destruct (_find_item_index _ _ _) as [ix|] eqn:Hfind; [|by eauto].
    destruct (is_clerk a); simpl; [|by eauto].
    destruct (find_item_index_lookup _ _ _ _ Hfind) as [r Hr]. rewrite Hr.
    destruct (truthy (Available r)) eqn:Hav; simpl; [|by eauto].
    destruct H as [?|[(ix' & r' & Hix & Hr' & Hav')|Hstaff]]; [done| |].
    - simplify_eq. congruence.
    - rewrite Hstaff. simpl. by eauto. }
  exists title, text. rewrite Heq. done.
Qed.

(** ** Return *)

Lemma refresh_inventory_eq e a :
  _refresh_inventory_table e a =
    set_inventory (normalise_available <$> Inventory (data_book (disk a)))
      (set_disk (ensure_workbooks_exist e (disk a)) a).
Proof. unfold _refresh_inventory_table, load_inventory. by rewrite read_data_book. Qed.

Lemma show_issued_eq e a :
  show_issued e a =
    set_issued (Issued (data_book (disk a)))
      (set_disk (ensure_workbooks_exist e (disk a)) a).
Proof. unfold show_issued, load_issued. by rewrite read_data_book. Qed.





(** ** Login *)

Lemma load_users_eq e d :
  load_users e d = (Users (auth_book d), ensure_workbooks_exist e d).
Proof. unfold load_users. by rewrite read_auth_book. Qed.

(** What every rejected login returns: the error box, the reloaded Users
    frame, nobody logged in. *)
Lemma login_cases username_var password_var e a :
  let users := Users (auth_book (disk a)) in
  let u := strip username_var in
  let p := strip password_var in
  let rejected :=
    (Some (showerror "Login failed" "Invalid username or password."),
     mkApp (inventory_df a) (issued_df a) users (current_user a)
       (current_role a) (ensure_workbooks_exist e (disk a))) in
  match filter (λ r, Username r = u ∧ Active r = true) users with
  | r :: _ =>
      if check_pw p (PasswordHash r)
      then (_login username_var password_var e a).1 = None
           ∧ current_user (_login username_var password_var e a).2 = Some u
           ∧ current_role (_login username_var password_var e a).2 = role_of (Role r)
      else _login username_var password_var e a = rejected
  | [] => _login username_var password_var e a = rejected
  end.
Proof.
  intros users u p rejected. unfold _login. rewrite load_users_eq.
  fold users u p.
  destruct (filter _ users) as [|r sel]; [done|].
  destruct (check_pw p (PasswordHash r)); done.
Qed.

Lemma NoDup_fmap_eq {A B} (f : A → B) (l : list A) x y :
  NoDup (f <$> l) → x ∈ l → y ∈ l → f x = f y → x = y.
Proof.
  induction l as [|z l IH]; simpl; [by intros _ ?%elem_of_nil|].
  intros [Hz Hl]%NoDup_cons [->|Hx]%elem_of_cons [->|Hy]%elem_of_cons Hf;
    [done| | |by auto].
  - exfalso. apply Hz. rewrite Hf. by apply list_elem_of_fmap_2.
  - exfalso. apply Hz. rewrite <- Hf. by apply list_elem_of_fmap_2.
Qed.

(** C7.  With the usernames of the Users sheet pairwise distinct, a login is
    accepted exactly when some account has the stripped username, is active
    and stores the hash of the stripped password.  Every rejected login,
    whatever its reason, returns the same error box and the same state, which
    depend on neither the username nor the password.  A username all of whose
    accounts are inactive is rejected whatever the password. *)
Theorem login_accepts_iff username_var password_var e a :
  let users := Users (auth_book (disk a)) in
  let u := strip username_var in
  let p := strip password_var in
  let rejected :=
    (Some (showerror "Login failed" "Invalid username or password."),
     mkApp (inventory_df a) (issued_df a) users (current_user a)
       (current_role a) (ensure_workbooks_exist e (disk a))) in
  NoDup (Username <$> users) →
  ((_login username_var password_var e a).1 = None ↔
     ∃ r, r ∈ users ∧ Username r = u ∧ Active r = true
          ∧ hash_pw p = str (PasswordHash r))
  ∧ ((_login username_var password_var e a).1 ≠ None →
     _login username_var password_var e a = rejected)
  ∧ ((∀ r, r ∈ users → Username r = u → Active r = false) →
     _login username_var password_var e a = rejected).
Proof.
  intros users u p rejected Hdup.
  pose proof (login_cases username_var password_var e a) as Hc.
  cbv zeta in Hc. fold users u p rejected in Hc.
  destruct (filter _ users) as [|r sel] eqn:Hsel.
  - assert (∀ r, r ∈ users → ¬ (Username r = u ∧ Active r = true)) as Hnone.
    { intros r Hr HP.
      assert (r ∈ filter (λ r, Username r = u ∧ Active r = true) users) as Hin
        by by apply list_elem_of_filter.
      rewrite Hsel in Hin. by apply elem_of_nil in Hin. }
    rewrite Hc. simpl. split_and!; [|done..].
    split; [done|]. intros (r & Hr & Hu & Hact & _). by destruct (Hnone r).
  - assert (r ∈ filter (λ r, Username r = u ∧ Active r = true) users) as Hin
      by (rewrite Hsel; apply list_elem_of_here).
    apply list_elem_of_filter in Hin as [[Hu Hact] Hr].
    unfold check_pw in Hc. case_bool_decide as Hpw.
    + destruct Hc as (Hacc & _). split_and!.
      * split; [by eauto 10|done].
      * by rewrite Hacc.
      * intros Hinactive. rewrite (Hinactive r Hr Hu) in Hact. done.
    + rewrite Hc. simpl. split_and!; [|done..].
      split; [done|]. intros (r' & Hr' & Hu' & Hact' & Hpw').
      assert (r' = r) as -> by (eapply NoDup_fmap_eq; [done..|congruence]).
      done.
Qed.

Lemma login_first_active username_var password_var e a :
  (_login username_var password_var e a).1 = None ↔
    ∃ r, head (filter (λ r, Username r = strip username_var ∧ Active r = true)
                 (Users (auth_book (disk a)))) = Some r
         ∧ hash_pw (strip password_var) = str (PasswordHash r).
Proof.
  pose proof (login_cases username_var password_var e a) as Hc.
  cbv zeta in Hc. destruct (filter _ _) as [|r sel]; simpl.
  - rewrite Hc. simpl. split; [done|]. by intros (? & ? & _).
  - unfold check_pw in Hc. case_bool_decide as Hpw.
    + destruct Hc as (-> & _). split; [by eauto|done].
    + rewrite Hc. simpl. split; [done|]. intros (? & [= <-] & ?). done.
Qed.

(** C10.  Two login attempts whose usernames and whose passwords differ only
    in the whitespace around them return the same thing: the same message,
    user, role and state. *)
Theorem login_strips_whitespace l1 r1 l2 r2 l1' r1' l2' r2' username password e a :
  whitespace l1 = true → whitespace r1 = true →
  whitespace l2 = true → whitespace r2 = true →
  whitespace l1' = true → whitespace r1' = true →
  whitespace l2' = true → whitespace r2' = true →
  _login (l1 +:+ username +:+ r1) (l2 +:+ password +:+ r2) e a
    = _login (l1' +:+ username +:+ r1') (l2' +:+ password +:+ r2') e a.
Proof.
  intros. unfold _login. by rewrite !strip_surround by done.
Qed.

(** ** The built-in admin account *)

Lemma save_sheet_fixed e e' f d :
  ensure_workbooks_exist e' (save_sheet e f d) = save_sheet e f d.
Proof.
  eapply ensure_workbooks_id; [apply save_sheet_data_file|apply save_sheet_auth_file].
Qed.

Lemma append_history_fixed e e' u act det d :
  ensure_workbooks_exist e' (append_history e u act det d)
    = append_history e u act det d.
Proof. unfold append_history, load_history. apply save_sheet_fixed. Qed.

Lemma ensure_admin_user_fixed e e' d :
  ensure_workbooks_exist e' (ensure_admin_user e d) = ensure_admin_user e d.
Proof.
  unfold ensure_admin_user. rewrite load_users_eq.
  destruct (list_find _ _) as [[i r]|]; apply save_sheet_fixed.
Qed.

Lemma startup_disk e d :
  disk (startup e d) = ensure_admin_user e (ensure_workbooks_exist e d).
Proof.
  unfold startup, load_inventory, load_issued, load_users. simpl.
  by rewrite !ensure_admin_user_fixed.
Qed.

Lemma logout_disk e a :
  disk (logout e a)
    = ensure_admin_user e (append_history e (current_user a) "LOGOUT" "" (disk a)).
Proof.
  unfold logout, load_inventory, load_issued, load_users. simpl.
  by rewrite !append_history_fixed.
Qed.

(** C8.  [ensure_admin_user] looks for the first Users row whose username
    lowercases to "admin" (so "Admin" and "ADMIN" count).  Such a row gets
    Role = "Admin" and Active = true, and its hash is replaced by the hash of
    "Admin@2028" exactly when the stored hash, as text, is empty or
    whitespace; no ledger entry is written.  With no such row, an "admin"
    row with that hash is appended and the ledger gets a SEED_ADMIN entry of
    user "system".  Start and logout both end with this step. *)
Theorem ensure_admin_user_spec e d :
  let users := Users (auth_book d) in
  let d' := ensure_admin_user e d in
  let named_admin := λ r, lower (Username r) = "admin" in
  (lower "Admin" = "admin" ∧ lower "ADMIN" = "admin")
  ∧ (∀ i r,
       first_index named_admin users i → users !! i = Some r →
       Users (auth_book d') =
         <[i := mkUserRow (Username r)
                  (if bool_decide (strip (str (PasswordHash r)) = "")
                   then Str (hash_pw "Admin@2028") else PasswordHash r)
                  (Str "Admin") true]> users
       ∧ History (data_book d') = History (data_book d))
  ∧ ((∀ r, r ∈ users → ¬ named_admin r) →
       Users (auth_book d') =
         users ++ [mkUserRow "admin" (Str (hash_pw "Admin@2028")) (Str "Admin") true]
       ∧ History (data_book d') =
           History (data_book d)
             ++ [mkHistoryRow (now e) "system" "SEED_ADMIN" "Built-in admin created"])
  ∧ (∀ d0, disk (startup e d0) = ensure_admin_user e (ensure_workbooks_exist e d0))
  ∧ (∀ a, disk (logout e a) =
            ensure_admin_user e
              (append_history e (current_user a) "LOGOUT" "" (disk a))).
Proof.
  intros users d' named_admin. split; [by vm_compute|].
  split_and!; [| |apply startup_disk|apply logout_disk].
  - intros i r Hfirst Hr.
    assert (list_find named_admin users = Some (i, r)) as Hfind.
    { apply list_find_Some. destruct Hfirst as [(x & Hx & HP) Hmin].
      simplify_eq. eauto. }
    unfold d', ensure_admin_user. rewrite load_users_eq. fold users named_admin.
    rewrite Hfind. autorewrite with disk. done.
  - intros Hnone.
    assert (list_find named_admin users = None) as Hfind.
    { apply list_find_None, Forall_forall. done. }
    unfold d', ensure_admin_user. rewrite load_users_eq. fold users named_admin.
    rewrite Hfind. autorewrite with disk. done.
Qed.

(** ** Backup before save *)





(** ** Batch issue *)














(** ** Add with merge *)

Lemma save_item_add_effect f e a :
  let new_row := new_row_of f in
  ¬ (Serial_Number new_row = "" ∧ Barcode new_row = "") →
  let inv' :=
    match _find_item_index (inventory_df a) (Serial_Number new_row)
            (Barcode new_row) with
    | Some ix => alter (merge_row new_row) ix (inventory_df a)
    | None => inventory_df a ++ [new_row]
    end in
  let a' := (save_item Add f e a).2 in
  (save_item Add f e a).1 = None
  ∧ inventory_df a' = normalise_available <$> inv'
  ∧ issued_df a' = issued_df a
  ∧ Inventory (data_book (disk a')) = inv'
  ∧ Issued (data_book (disk a')) = Issued (data_book (disk a)).
Proof.
  intros new_row Hid inv' a'. subst a' inv'. unfold save_item. fold new_row.
  rewrite bool_decide_eq_false_2 by done.
  destruct (_find_item_index _ _ _) as [ix|];
    rewrite refresh_inventory_eq; simpl; autorewrite with disk; done.
Qed.


(** Two adds of one identity: the second one finds the row the first one
    made, and the quantities add up. *)
Lemma add_twice_quantity f1 f2 e a :
  let r1 := new_row_of f1 in
  let r2 := new_row_of f2 in
  ¬ (Serial_Number r1 = "" ∧ Barcode r1 = "") →
  _find_item_index (inventory_df a) (Serial_Number r1) (Barcode r1) = None →
  Serial_Number r2 = Serial_Number r1 → Serial_Number r1 ≠ "" →
  (∀ r, r ∈ inventory_df a → Serial_Number r ≠ Serial_Number r1) →
  let a1 := (save_item Add f1 e a).2 in
  let a2 := (save_item Add f2 e a1).2 in
  ∃ row, Inventory (data_book (disk a2)) !! length (inventory_df a) = Some row
    ∧ length (Inventory (data_book (disk a2))) = S (length (inventory_df a))
    ∧ Quantity row = Quantity r1 + Quantity r2.
Proof.
  intros r1 r2 Hid Hnone Hsame Hne Hfresh a1 a2.
  destruct (save_item_add_effect f1 e a Hid) as (_ & Hmem & _ & _ & _).
  fold r1 a1 in Hmem. rewrite Hnone in Hmem.
  assert (_find_item_index (inventory_df a1) (Serial_Number r2) (Barcode r2)
          = Some (length (inventory_df a))) as Hfind.
  { apply find_item_index_Some. left. rewrite Hsame. split; [done|].
    rewrite Hmem, fmap_app. split.
    - exists (normalise_available r1). split; [|done].
      rewrite lookup_app_r by (by rewrite length_fmap).
      by rewrite length_fmap, Nat.sub_diag.
    - intros j y Hj Hy. rewrite lookup_app_l in Hy by (by rewrite length_fmap).
      apply list_lookup_fmap_Some in Hy as (y' & -> & Hy').
      simpl. apply Hfresh. by eapply list_elem_of_lookup_2. }
  assert (¬ (Serial_Number r2 = "" ∧ Barcode r2 = "")) as Hid2
    by (rewrite Hsame; by intros [? _]).
  destruct (save_item_add_effect f2 e a1 Hid2) as (_ & _ & _ & Hinv & _).
  fold r2 a2 in Hinv. rewrite Hfind in Hinv. rewrite Hinv, Hmem.
  exists (merge_row r2 (normalise_available r1)). split_and!.
  - rewrite list_lookup_alter_eq, fmap_app.
    rewrite lookup_app_r by (by rewrite length_fmap).
    by rewrite length_fmap, Nat.sub_diag.
  - rewrite length_alter, length_fmap, length_app. simpl. lia.
  - done.
Qed.

(** ** Issued records and availability *)

















(** *** The operations keep the invariant *)



















(** *** Updates that keep the identity, and deletions *)











Lemma reachable_core_reachable a : reachable_core a → reachable a.
Proof.
  induction 1;
    [ apply reach_start | apply reach_login | apply reach_logout
    | apply reach_add | apply reach_add | apply reach_edit | apply reach_delete
    | apply reach_issue | apply reach_batch_issue
    | apply reach_return | apply reach_batch_return
    | apply reach_save_user ]; assumption.
Qed.



(** ** The lookup rule, as the operations use it *)



(** ** The usernames of the Users sheet stay distinct *)

Lemma lower_admin : lower "admin" = "admin".
Proof. reflexivity. Qed.

Lemma fmap_insert_same {A B} (f : A → B) (l : list A) i x y :
  l !! i = Some x → f y = f x → f <$> <[i := y]> l = f <$> l.
Proof.
  intros Hx Hf. rewrite list_fmap_insert, Hf.
  apply list_insert_id. by rewrite list_lookup_fmap, Hx.
Qed.

Lemma ensure_admin_user_unique e d :
  users_unique d → users_unique (ensure_admin_user e d).
Proof.
  unfold users_unique, ensure_admin_user. rewrite load_users_eq. intros Hdup.
  destruct (list_find _ _) as [[i r]|] eqn:Hfind; autorewrite with disk; simpl.
  - apply list_find_Some in Hfind as (Hr & _ & _).
    by rewrite (fmap_insert_same Username _ i r).
  - rewrite fmap_app. apply NoDup_app. split_and!; [done| |apply NoDup_singleton].
    intros u Hu ->%list_elem_of_singleton.
    apply list_elem_of_fmap in Hu as (r & Hname & Hr).
    apply list_find_None in Hfind. rewrite Forall_forall in Hfind.
    apply (Hfind r Hr). simpl. by rewrite <- Hname.
Qed.

Lemma save_user_unique un ro ac pw e a :
  users_unique (disk a) → users_unique (disk (save_user un ro ac pw e a).2).
Proof.
  intros Hdup. unfold save_user. case_bool_decide; [done|].
  rewrite !load_users_eq. cbn [disk snd]. unfold users_unique.
  rewrite ensure_auth_book. apply ensure_admin_user_unique.
  unfold users_unique. autorewrite with disk. simpl.
  destruct (list_find _ _) as [[i r]|] eqn:Hfind.
  - apply list_find_Some in Hfind as (Hr & _ & _).
    by rewrite (fmap_insert_same Username _ i r).
  - rewrite fmap_app. apply NoDup_app. split_and!; [done| |apply NoDup_singleton].
    intros u Hu ->%list_elem_of_singleton.
    apply list_elem_of_fmap in Hu as (r & Hname & Hr).
    apply list_find_None in Hfind. rewrite Forall_forall in Hfind.
    by apply (Hfind r Hr).
Qed.

Lemma refresh_inventory_auth e a :
  auth_book (disk (_refresh_inventory_table e a)) = auth_book (disk a).
Proof. rewrite refresh_inventory_eq. simpl. by autorewrite with disk. Qed.

Lemma show_issued_auth e a :
  auth_book (disk (show_issued e a)) = auth_book (disk a).
Proof. rewrite show_issued_eq. simpl. by autorewrite with disk. Qed.

Lemma login_auth u p e a :
  auth_book (disk (_login u p e a).2) = auth_book (disk a).
Proof.
  unfold _login. rewrite load_users_eq.
  destruct (filter _ _) as [|r sel]; simpl; [by autorewrite with disk|].
  destruct (check_pw _ _); simpl; by autorewrite with disk.
Qed.

Lemma save_item_auth mode f e a :
  auth_book (disk (save_item mode f e a).2) = auth_book (disk a).
Proof.
  unfold save_item. case_bool_decide; [done|].
  destruct mode as [|i]; [destruct (_find_item_index _ _ _)|];
    cbn [snd]; rewrite refresh_inventory_auth; simpl; by autorewrite with disk.
Qed.

Lemma delete_item_auth i c e a :
  auth_book (disk (delete_item i c e a).2) = auth_book (disk a).
Proof.
  unfold delete_item. destruct (inventory_df a !! i); [|done].
  destruct c; [|done]. cbn [negb snd].
  rewrite refresh_inventory_auth. simpl. by autorewrite with disk.
Qed.

Lemma do_issue_auth code staff dept pos e a :
  auth_book (disk (do_issue code staff dept pos e a).2) = auth_book (disk a).
Proof.
  unfold do_issue.
  destruct (_find_item_index _ _ _) as [ix|]; [|done].
  destruct (is_clerk a); [|done]. cbn [negb].
  destruct (inventory_df a !! ix) as [r|]; [|done].
  destruct (truthy (Available r)); [|done]. cbn [negb].
  case_bool_decide; [done|]. cbn [snd].
  rewrite refresh_inventory_auth. simpl. by autorewrite with disk.
Qed.

Lemma batch_issue_auth lines staff dept pos e a :
  auth_book (disk (batch_issue lines staff dept pos e a).2) = auth_book (disk a).
Proof.
  unfold batch_issue. case_bool_decide; [done|].
  destruct (foldl _ _ _) as [[inv iss] count]. cbn [snd].
  rewrite refresh_inventory_auth. simpl.
  case_bool_decide; by autorewrite with disk.
Qed.

Lemma do_return_auth code e a :
  auth_book (disk (do_return code e a).2) = auth_book (disk a).
Proof.
  unfold do_return. destruct (find_issued _ _) as [[ix row]|]; [|done].
  destruct (return_frames _ _ _ _) as [inv iss]. cbn [snd].
  rewrite show_issued_auth. simpl. by autorewrite with disk.
Qed.

Lemma batch_return_auth lines e a :
  auth_book (disk (batch_return lines e a).2) = auth_book (disk a).
Proof.
  unfold batch_return. destruct (foldl _ _ _) as [[inv iss] count]. cbn [snd].
  rewrite show_issued_auth. simpl.
  case_bool_decide; by autorewrite with disk.
Qed.

(** The hypothesis of C7 holds in every state the application reaches. *)
Lemma reachable_users_unique a : reachable a → users_unique (disk a).
Proof.
  induction 1 as [e|u p e a _ IH|e a _ IH|f e a _ IH|i f e a _ IH
                  |i c e a _ IH|code staff dept pos e a _ IH
                  |lines staff dept pos e a _ IH|code e a _ IH
                  |lines e a _ IH|un ro ac pw e a _ IH].
  - rewrite startup_disk. apply ensure_admin_user_unique.
    unfold users_unique. rewrite ensure_auth_book. apply NoDup_singleton.
  - unfold users_unique. by rewrite login_auth.
  - rewrite logout_disk. apply ensure_admin_user_unique.
    unfold users_unique. by rewrite append_history_auth_book.
  - unfold users_unique. by rewrite save_item_auth.
  - unfold users_unique. by rewrite save_item_auth.
  - unfold users_unique. by rewrite delete_item_auth.
  - unfold users_unique. by rewrite do_issue_auth.
  - unfold users_unique. by rewrite batch_issue_auth.
  - unfold users_unique. by rewrite do_return_auth.
  - unfold users_unique. by rewrite batch_return_auth.
  - by apply save_user_unique.
Qed.

(** ** An add can store an unavailable item without a record *)

(** Whatever the library, the time and the user: on an empty inventory with
    an empty Issued sheet, an add whose Available field reads "No" leaves an
    unavailable item that no Issued row stands for. *)
Lemma add_unavailable_breaks f e a :
  inventory_df a = [] → Issued (data_book (disk a)) = [] →
  strip (f_Serial_Number f) ≠ "" → strip (f_Available f) = "No" →
  ¬ store_consistent (save_item Add f e a).2.
Proof.
  intros Hinv Hiss Hsn Hav Hcons.
  assert (¬ (Serial_Number (new_row_of f) = "" ∧ Barcode (new_row_of f) = ""))
    as Hid by (by intros [? _]).
  destruct (save_item_add_effect f e a Hid) as (_ & _ & _ & Hsh & Hsh').
  rewrite Hinv in Hsh. unfold _find_item_index in Hsh. simpl in Hsh.
  repeat case_bool_decide; simpl in Hsh;
    (destruct (Hcons (new_row_of f)) as [[Hone _] _];
     [rewrite Hsh; apply list_elem_of_here|];
     rewrite Hsh', Hiss in Hone;
     assert (Available (new_row_of f) = "No") as Hno
       by (simpl; rewrite Hav; done);
     specialize (Hone Hno); done).
Qed.

End Properties.

(** * The model on the sample data *)

(** The scenario of the specification: add SN1 with quantity 5, add it again
    with quantity 3, issue it to alice, return it. *)
Example scenario_add_issue_return :
  let a2 := (save_item Add form_more env0 app_added).2 in
  let a3 := (do_issue "SN1" "alice" "" "" env0 a2).2 in
  let a4 := (do_return "SN1" env0 a3).2 in
  Quantity <$> inventory_df a2 = [8]
  ∧ Available <$> inventory_df a3 = ["No"]
  ∧ Issued_To <$> issued_df a3 = ["alice"]
  ∧ Available <$> inventory_df a4 = ["Yes"]
  ∧ issued_df a4 = [].
Proof. by vm_compute. Qed.


(** The other operations left out of [reachable_core] break the property
    too: an edit can write "No"; a merging add resets an issued item to
    "Yes"; a deleted issued item leaves its record to a later add. *)
Example edit_breaks_consistency :
  ¬ store_consistent (save_item (Edit 0) form_unavailable env0 app_added).2.
Proof.
  intros H.
  destruct (H (mkInventoryRow (lib := py) "Laptop" "IT" "SN1" "" "No" "" 1
                 0%float 0)) as [[Hone _] _].
  - apply (list_elem_of_lookup_2 _ 0%nat). reflexivity.
  - specialize (Hone eq_refl). by vm_compute in Hone.
Qed.

Example merge_breaks_consistency :
  ¬ store_consistent (save_item Add form_more env0 app_issued).2.
Proof.
  intros H.
  destruct (H (mkInventoryRow (lib := py) "Laptop" "IT" "SN1" "" "Yes" "Store A"
                 8 0%float 0)) as [_ Hnone].
  - apply (list_elem_of_lookup_2 _ 0%nat). reflexivity.
  - specialize (Hnone eq_refl). by vm_compute in Hnone.
Qed.

Example delete_breaks_consistency :
  ¬ store_consistent
      (save_item Add form_laptop env0 (delete_item 0 true env0 app_issued).2).2.
Proof.
  intros H.
  destruct (H (mkInventoryRow (lib := py) "Laptop" "IT" "SN1" "" "Yes" "Store A"
                 5 10%float 2)) as [_ Hnone].
  - apply (list_elem_of_lookup_2 _ 0%nat). reflexivity.
  - specialize (Hnone eq_refl). by vm_compute in Hnone.
Qed.



(** The same input, evaluated: the price, the threshold and the Available
    flag of the stored row are lost. *)
Example merge_add_clobbers :
  inventory_df app_issued =
    [mkInventoryRow (lib := py) "Laptop" "IT" "SN1" "" "No" "Store A" 5 10%float 2]
  ∧ Inventory (data_book (disk (save_item Add form_more env0 app_issued).2)) =
    [mkInventoryRow (lib := py) "Laptop" "IT" "SN1" "" "Yes" "Store A" 8 0%float 0].
Proof. split; reflexivity. Qed.


(** C4 on the sample data: issuing SN1 again, and to nobody. *)
Lemma do_issue_failure_unchanged_witness :
  ∃ title text,
    do_issue "SN1" "" "" "" env0 app_issued = (Some (showerror title text), app_issued)
    ∧ Inventory (data_book (disk (do_issue "SN1" "" "" "" env0 app_issued).2))
      = Inventory (data_book (disk app_issued))
    ∧ Issued (data_book (disk (do_issue "SN1" "" "" "" env0 app_issued).2))
      = Issued (data_book (disk app_issued))
    ∧ History (data_book (disk (do_issue "SN1" "" "" "" env0 app_issued).2))
      = History (data_book (disk app_issued)).
Proof.
  apply (do_issue_failure_unchanged (lib := py) "SN1" "" "" "" env0 app_issued).
  right. right. reflexivity.
Defined.

(** C7 on the sample data: the seeded admin logs in. *)
Lemma login_accepts_iff_witness :
  ((_login (lib := py) " admin " "Admin@2028" env0 app0).1 = None ↔
     ∃ r, r ∈ Users (auth_book (disk app0)) ∧ Username r = "admin"
          ∧ Active r = true
          ∧ hash_pw (lib := py) "Admin@2028" = str (PasswordHash r))
  ∧ (_login (lib := py) " admin " "Admin@2028" env0 app0).1 = None.
Proof.
  destruct (login_accepts_iff (lib := py) " admin " "Admin@2028" env0 app0)
    as (Hiff & _ & _).
  - apply (NoDup_singleton "admin").
  - split; [exact Hiff|]. reflexivity.
Defined.

(** C10 on the sample data. *)
Lemma login_strips_whitespace_witness :
  _login (lib := py) "  admin " " Admin@2028" env0 app0
    = _login (lib := py) "admin   " "Admin@2028  " env0 app0.
Proof.
  apply (login_strips_whitespace (lib := py) "  " " " " " "" "" "   " "" "  "
           "admin" "Admin@2028" env0 app0); reflexivity.
Defined.
